(** * errors.go of package lo: Must, MustE, Try, TryOr, TryWithErrorValue

    A shallow embedding of [src/errors.go].  Go code that can panic and that
    mutates variables is written in a state-and-panic monad; interface values
    ([any], [error]) are an optional dynamic value, [None] being Go's [nil].

    What the model takes for granted:
    - a callback is a total computation: from a state it returns a result or
      panics with a payload, and leaves a state; a callback that loops for
      ever or ends the goroutine or the process is not represented;
    - the function stored in [LoPanic] and [fmt.Sprintf] are parameters of
      the package; [LoPanic] is not reassigned while a call is running;
    - the [Error] method of an error value is a total function to its text;
    - the runtime is Go 1.21 or later with default settings: [panic(nil)]
      panics with a [*runtime.PanicNilError], so [recover()] is nil only when
      the function is not panicking. *)

From Stdlib Require Import String Ascii List ZArith Bool DecimalString Lia.
Import ListNotations.
Local Open Scope string_scope.

(** ** Go values *)

Module Go.

(** What reflection reports of a Go type: [String()], the type as fmt's %T
    and the runtime's messages print it ("int", "lo.Foo", "*lo.Foo",
    "[]int"), and [Name()], the name of a defined type inside its package
    ("int", "Foo"), which is empty for a type that has no name of its own (a
    pointer, a slice, a map, ...). *)
Record rtype : Type := mkType {
  rtype_String : string;
  rtype_Name : string
}.

(** Implementations of the [error] interface.  [wrapErrPrefixMsg] is the
    struct of errors.go (lines 122-125); its [Base] field is never nil in a
    value the package builds (the only constructor call is in [mustE], after
    the nil test), so [Base] is an [err].  The other constructors stand for
    error types from outside the package, each with its type and the text its
    [Error] method returns; they stand for types whose only method is
    [Error]: an outside error that wraps another error is not represented. *)
Inductive err : Type :=
| errorString (s : string)                      (* errors.New(s), fmt.Errorf *)
| runtimeError (t : rtype) (msg : string)       (* a runtime.Error raised by the Go runtime *)
| customError (t : rtype) (msg : string)        (* any other error type *)
| wrapErr (w : wrapErrPrefixMsg)
with wrapErrPrefixMsg : Type :=
| mkWrap (Base : err) (Attach : string).

Definition Base (w : wrapErrPrefixMsg) : err := let (b, _) := w in b.
Definition Attach (w : wrapErrPrefixMsg) : string := let (_, a) := w in a.

(** Dynamic (non-nil) values stored in an interface. *)
Inductive dyn : Type :=
| DBool (b : bool)
| DString (s : string)
| DInt (z : Z)
| DError (e : err)
| DOther (t : rtype) (plusv : string).
    (* a value of any other type: its type and its rendering under %+v *)

(** [interface{}] / [any], and the [error] interface; [None] is [nil]. *)
Definition any : Type := option dyn.
Definition error : Type := option err.

(** Assigning an [error] to an [any] variable. *)
Definition any_of_error (e : error) : any :=
  match e with
  | Some x => Some (DError x)
  | None => None
  end.

(** The type assertion [v.(string)] in its comma-ok form. *)
Definition assert_string (v : any) : option string :=
  match v with
  | Some (DString s) => Some s
  | _ => None
  end.

(** [reflect.TypeOf(v).String()], as fmt prints a type. *)
Definition type_String (d : dyn) : string :=
  match d with
  | DBool _ => "bool"
  | DString _ => "string"
  | DInt _ => "int"
  | DError (errorString _) => "*errors.errorString"
  | DError (runtimeError t _) => rtype_String t
  | DError (customError t _) => rtype_String t
  | DError (wrapErr _) => "lo.wrapErrPrefixMsg"
  | DOther t _ => rtype_String t
  end.

(** [reflect.TypeOf(v).Name()]: the name of a defined type inside its
    package, empty for an unnamed type such as a pointer. *)
Definition reflect_Name (d : dyn) : string :=
  match d with
  | DBool _ => "bool"
  | DString _ => "string"
  | DInt _ => "int"
  | DError (errorString _) => ""
  | DError (runtimeError t _) => rtype_Name t
  | DError (customError t _) => rtype_Name t
  | DError (wrapErr _) => "wrapErrPrefixMsg"
  | DOther t _ => rtype_Name t
  end.

(** ** Outcomes, and the state-and-panic monad

    A call either returns or panics with a payload.  From Go 1.21 on
    [panic(nil)] raises a [*runtime.PanicNilError], so the payload that
    [recover()] hands back while panicking is never nil: it is a [dyn]. *)
Inductive outcome (A : Type) : Type :=
| Return (a : A)
| Panicked (payload : dyn).
Arguments Return {A} a.
Arguments Panicked {A} payload.

(** A computation over a state [S]: the state survives a panic, as the
    assignments made before a Go panic do. *)
Definition M (S A : Type) : Type := S -> outcome A * S.

Definition ret {S A} (a : A) : M S A := fun s => (Return a, s).

Definition bind {S A B} (m : M S A) (k : A -> M S B) : M S B :=
  fun s =>
    match m s with
    | (Return a, s') => k a s'
    | (Panicked p, s') => (Panicked p, s')
    end.

(** A pure step that may panic (a failed type assertion). *)
Definition of_outcome {S A} (o : outcome A) : M S A := fun s => (o, s).

Definition panicNilError : dyn :=
  DError (runtimeError (mkType "*runtime.PanicNilError" "")
    "panic called with nil argument (obsolete GODEBUG=panicnil=1)").

(** The builtin [panic(v)]. *)
Definition go_panic {S A} (v : any) : M S A :=
  fun s =>
    match v with
    | Some d => (Panicked d, s)
    | None => (Panicked panicNilError, s)
    end.

(** The failed assertion [v.(string)] without comma-ok: a
    [*runtime.TypeAssertionError]. *)
Definition typeAssertionError (v : any) : dyn :=
  DError (runtimeError (mkType "*runtime.TypeAssertionError" "")
    ("interface conversion: interface {} is "
       ++ match v with Some d => type_String d | None => "nil" end
       ++ ", not string")).

(** *** Local variables of an enclosing function

    A closure that assigns to variables of the function around it runs over
    the state extended with those variables. *)
Definition lift {L S A} (m : M S A) : M (L * S) A :=
  fun ls =>
    let (l, s) := ls in
    let (o, s') := m s in (o, (l, s')).

Definition assign {L S} (f : L -> L) : M (L * S) unit :=
  fun ls => let (l, s) := ls in (Return tt, (f l, s)).

(** Run [body] with local variables initialised to [init]; hand back their
    final values when [body] returns. *)
Definition with_locals {L S B} (init : L) (body : M (L * S) B) : M S (B * L) :=
  fun s =>
    match body (init, s) with
    | (Return b, (l, s')) => (Return (b, l), s')
    | (Panicked p, (_, s')) => (Panicked p, s')
    end.

(** A function with named results [L] whose first statement after the
    initialisation of the results is
    [defer func() { if r := recover(); ... }()].  The deferred function runs
    when [body] returns ([recover()] is nil) and when [body] panics
    ([recover()] is the payload, and the panic stops there); it updates the
    named results, which the function then returns. *)
Definition with_deferred_recover {L S}
    (init : L) (body : M (L * S) unit) (deferred : any -> L -> L) : M S L :=
  fun s =>
    match body (init, s) with
    | (Return _, (l, s')) => (Return (deferred None l), s')
    | (Panicked p, (l, s')) => (Return (deferred (Some p) l), s')
    end.

(** The program state seen by the package: a ghost record of the payloads
    the abort hook was called with, oldest first, next to the state [U] of
    the surrounding program. *)
Record world (U : Type) : Type := mkWorld {
  hook_calls : list any;
  user : U
}.
Arguments mkWorld {U} hook_calls user.
Arguments hook_calls {U} w.
Arguments user {U} w.

Definition record_call {U} (e : any) (w : world U) : world U :=
  mkWorld (hook_calls w ++ [e]) (user w).

End Go.

Export Go.

Declare Scope go_scope.
Delimit Scope go_scope with go.
Notation "x <- m ;; k" := (bind m (fun x => k))
  (at level 61, m at next level, right associativity) : go_scope.
Notation "m ;;; k" := (bind m (fun _ => k))
  (at level 61, right associativity) : go_scope.
Local Open Scope go_scope.

(** ** The error interface: [Error] and [Unwrap] *)

(** [e.Error()], dispatched on the dynamic type; [wrapErrPrefixMsg_Error] is
    the method of errors.go lines 127-132. *)
Fixpoint err_Error (e : err) : string :=
  match e with
  | errorString s => s
  | runtimeError _ msg => msg
  | customError _ msg => msg
  | wrapErr w => wrapErrPrefixMsg_Error w
  end
with wrapErrPrefixMsg_Error (w : wrapErrPrefixMsg) : string :=
  match w with
  | mkWrap b a =>
      if negb (a =? "") then a ++ ": " ++ err_Error b
      else err_Error b
  end.

Definition wrapErrPrefixMsg_String (w : wrapErrPrefixMsg) : string :=
  wrapErrPrefixMsg_Error w.

Definition wrapErrPrefixMsg_Unwrap (w : wrapErrPrefixMsg) : error :=
  Some (Base w).

(** [errors.Unwrap(e)] on the errors of this model: the package's wrapper
    has the [Unwrap] method of lines 136-138; the other constructors stand
    for error types without an [Unwrap] method. *)
Definition errors_Unwrap (e : err) : error :=
  match e with
  | wrapErr w => wrapErrPrefixMsg_Unwrap w
  | _ => None
  end.

(** ** A fragment of fmt.Sprintf

    The directives %v, %+v, %s, %d and %% on nil, bool, string, int and
    error operands, with fmt's own error texts for a wrong operand, a missing
    operand and operands left over.  [None]: the call is outside the
    fragment. *)
Module Fmt.

Definition decimal (z : Z) : string := NilZero.string_of_int (Z.to_int z).

Definition bool_text (b : bool) : string := if b then "true" else "false".

(** [type=value], as fmt writes an operand inside an error text. *)
Definition type_eq_value (a : any) : option string :=
  match a with
  | None => Some "<nil>"
  | Some (DBool b) => Some ("bool=" ++ bool_text b)
  | Some (DString s) => Some ("string=" ++ s)
  | Some (DInt z) => Some ("int=" ++ decimal z)
  | Some (DError _) => None
  | Some (DOther _ _) => None
  end.

Definition bad_verb (c : ascii) (a : any) : option string :=
  match type_eq_value a with
  | Some tv => Some ("%!" ++ String c ("(" ++ tv ++ ")"))
  | None => None
  end.

(** One operand under %v ([plus = false]) or %+v ([plus = true]). *)
Definition fmt_v (plus : bool) (a : any) : option string :=
  match a with
  | None => Some "<nil>"
  | Some (DBool b) => Some (bool_text b)
  | Some (DString s) => Some s
  | Some (DInt z) => Some (decimal z)
  | Some (DError e) => Some (err_Error e)
  | Some (DOther _ plusv) => if plus then Some plusv else None
  end.

Definition fmt_s (a : any) : option string :=
  match a with
  | Some (DString s) => Some s
  | Some (DError e) => Some (err_Error e)
  | _ => bad_verb "s" a
  end.

Definition fmt_d (a : any) : option string :=
  match a with
  | Some (DInt z) => Some (decimal z)
  | _ => bad_verb "d" a
  end.

Definition cat (x : option string) (y : option string) : option string :=
  match x, y with
  | Some a, Some b => Some (a ++ b)
  | _, _ => None
  end.

Fixpoint extra_list (args : list any) : option string :=
  match args with
  | [] => Some ""
  | [a] => type_eq_value a
  | a :: rest => cat (type_eq_value a) (cat (Some ", ") (extra_list rest))
  end.

(** Operands left over when the format is used up. *)
Definition extra (args : list any) : option string :=
  match args with
  | [] => Some ""
  | _ => cat (Some "%!(EXTRA ") (cat (extra_list args) (Some ")"))
  end.

(** One directive with verb [c] applied to the next operand. *)
Definition directive (c : ascii) (plus : bool) (args : list any)
    (continue : list any -> option string) : option string :=
  let render : option (any -> option string) :=
    if (c =? "v")%char then Some (fmt_v plus)
    else if plus then None
    else if (c =? "s")%char then Some fmt_s
    else if (c =? "d")%char then Some fmt_d
    else None in
  match render with
  | None => None
  | Some f =>
      match args with
      | [] => cat (Some ("%!" ++ String c "(MISSING)")) (continue [])
      | a :: rest => cat (f a) (continue rest)
      end
  end.

Fixpoint Sprintf (format : string) (args : list any) : option string :=
  match format with
  | EmptyString => extra args
  | String "%" EmptyString => cat (Some "%!(NOVERB)") (extra args)
  | String "%" (String "%" rest) => cat (Some "%") (Sprintf rest args)
  | String "%" (String "+" (String c rest)) => directive c true args (Sprintf rest)
  | String "%" (String c rest) => directive c false args (Sprintf rest)
  | String c rest => cat (Some (String c "")) (Sprintf rest args)
  end.

End Fmt.

(** ** Package errors: dynamic types and [errors.As]

    A model of the part of Go's standard library that [ErrorsAs] calls
    (package errors is not part of this repository), restricted to the errors
    of this model: the types an [err] can have, the interface type [error] as
    a possible target, and the walk [errors.As] makes through the package's
    wrappers.  An [errorString], a [runtimeError] and a [customError] stand
    for types with an [Error] method only, so the walk ends at them: an [As]
    method, an [Unwrap] method of an outside type and [Unwrap() []error] are
    not represented. *)
Module Errors.

Inductive errType : Type :=
| T_errorString
| T_runtimeError (name : string)
| T_customError (name : string)
| T_wrapErrPrefixMsg
| T_error.                                      (* the interface type error *)

Definition TypeOf (e : err) : errType :=
  match e with
  | errorString _ => T_errorString
  | runtimeError t _ => T_runtimeError (rtype_String t)
  | customError t _ => T_customError (rtype_String t)
  | wrapErr _ => T_wrapErrPrefixMsg
  end.

Definition errType_eqb (a b : errType) : bool :=
  match a, b with
  | T_errorString, T_errorString => true
  | T_runtimeError n, T_runtimeError m => n =? m
  | T_customError n, T_customError m => n =? m
  | T_wrapErrPrefixMsg, T_wrapErrPrefixMsg => true
  | T_error, T_error => true
  | _, _ => false
  end.

(** [t.AssignableTo(target)] for the type [t] of an error value: every error
    is assignable to the interface [error]; to a concrete type only a value
    of that very type. *)
Definition AssignableTo (t target : errType) : bool :=
  match target with
  | T_error => true
  | _ => errType_eqb t target
  end.

(** The loop of [errors.As] on a non-nil error of this model: the first
    error whose type is assignable to the target, the given error first and
    then what the package's wrappers hold, is stored in the target ([Some]);
    the walk ends without a match ([None]) at an error that is not a
    wrapper of the package. *)
Fixpoint As_loop (target : errType) (e : err) : option err :=
  if AssignableTo (TypeOf e) target then Some e
  else
    match e with
    | wrapErr (mkWrap b _) => As_loop target b    (* err = x.Unwrap() *)
    | _ => None
    end.

(** [errors.As(err, &t)] with [t] a variable of type [target]: the value
    left in [t] ([None]: [t] keeps its zero value) and the boolean result. *)
Definition As (err : error) (target : errType) : option Go.err * bool :=
  match err with
  | None => (None, false)
  | Some e =>
      match As_loop target e with
      | Some t => (Some t, true)
      | None => (None, false)
      end
  end.

End Errors.

(** [fmt.Errorf(format, a...)] when no operand is wrapped by a verb %w, as in
    every call [Validate] makes (it passes no operand): [errors.New] of the
    text that [Sprintf] gives. *)
Definition fmt_Errorf (Sprintf : string -> list any -> string)
    (format : string) (a : list any) : error :=
  Some (errorString (Sprintf format a)).

(** ** Package lo, errors.go *)

Module Lo.

(** [var LoPanic = func(e any) { panic(e) }] (line 10): the value the
    package variable has until a program replaces it. *)
Definition LoPanic_init {U} (e : any) : M (world U) unit := go_panic e.

Section Package.

Variable U : Type.

(** fmt.Sprintf, a total function of the format and the operands. *)
Variable Sprintf : string -> list any -> string.

(** The function stored in the package variable [LoPanic]. *)
Variable hook : any -> M (world U) unit.

(** A call [LoPanic(e)]: the payload is recorded, then the hook runs. *)
Definition LoPanic (e : any) : M (world U) unit :=
  fun w => hook e (record_call e w).

(** Lines 24-35.  The assertion [msgAndArgs[0].(string)] of line 32 has no
    comma-ok form: it panics when the first element is not a string. *)
Definition messageFromMsgAndArgs (msgAndArgs : list any) : outcome string :=
  match msgAndArgs with
  | [x] =>
      match assert_string x with
      | Some msgAsStr => Return msgAsStr
      | None => Return (Sprintf "%+v" [x])
      end
  | x :: rest =>
      match assert_string x with
      | Some format => Return (Sprintf format rest)
      | None => Panicked (typeAssertionError x)
      end
  | [] => Return ""
  end.

(** Lines 38-65. *)
Definition must (err : any) (messageArgs : list any) : M (world U) unit :=
  match err with
  | None => ret tt
  | Some (DBool e) =>
      if negb e then
        message <- of_outcome (messageFromMsgAndArgs messageArgs) ;;
        let message := if message =? "" then "not ok" else message in
        LoPanic (Some (DString message))
      else ret tt
  | Some (DError e) =>
      message <- of_outcome (messageFromMsgAndArgs messageArgs) ;;
      if negb (message =? "") then
        LoPanic (Some (DString (message ++ ": " ++ err_Error e)))
      else
        LoPanic (Some (DString (err_Error e)))
  | Some d =>
      LoPanic (Some (DString
        ("must: invalid err type '" ++ reflect_Name d
           ++ "', should either be a bool or an error")))
  end.

(** Lines 70-120. *)
Definition Must {T} (val : T) (err : any) (messageArgs : list any)
    : M (world U) T :=
  must err messageArgs ;;; ret val.

Definition Must0 (err : any) (messageArgs : list any) : M (world U) unit :=
  must err messageArgs.

Definition Must1 {T} (val : T) (err : any) (messageArgs : list any)
    : M (world U) T :=
  Must val err messageArgs.

Definition Must2 {T1 T2} (val1 : T1) (val2 : T2)
    (err : any) (messageArgs : list any) : M (world U) (T1 * T2) :=
  must err messageArgs ;;; ret (val1, val2).

Definition Must3 {T1 T2 T3} (val1 : T1) (val2 : T2) (val3 : T3)
    (err : any) (messageArgs : list any) : M (world U) (T1 * T2 * T3) :=
  must err messageArgs ;;; ret (val1, val2, val3).

Definition Must4 {T1 T2 T3 T4} (val1 : T1) (val2 : T2) (val3 : T3) (val4 : T4)
    (err : any) (messageArgs : list any) : M (world U) (T1 * T2 * T3 * T4) :=
  must err messageArgs ;;; ret (val1, val2, val3, val4).

Definition Must5 {T1 T2 T3 T4 T5}
    (val1 : T1) (val2 : T2) (val3 : T3) (val4 : T4) (val5 : T5)
    (err : any) (messageArgs : list any)
    : M (world U) (T1 * T2 * T3 * T4 * T5) :=
  must err messageArgs ;;; ret (val1, val2, val3, val4, val5).

Definition Must6 {T1 T2 T3 T4 T5 T6}
    (val1 : T1) (val2 : T2) (val3 : T3) (val4 : T4) (val5 : T5) (val6 : T6)
    (err : any) (messageArgs : list any)
    : M (world U) (T1 * T2 * T3 * T4 * T5 * T6) :=
  must err messageArgs ;;; ret (val1, val2, val3, val4, val5, val6).

(** Lines 140-146. *)
Definition mustE (err : error) (messageArgs : list any) : M (world U) unit :=
  match err with
  | None => ret tt
  | Some e =>
      message <- of_outcome (messageFromMsgAndArgs messageArgs) ;;
      LoPanic (Some (DError (wrapErr (mkWrap e message))))
  end.

(** Lines 148-192. *)
Definition MustE {T} (val : T) (err : error) (messageArgs : list any)
    : M (world U) T :=
  mustE err messageArgs ;;; ret val.

Definition MustE0 (err : error) (messageArgs : list any) : M (world U) unit :=
  mustE err messageArgs.

Definition MustE1 {T1} (val1 : T1) (err : error) (messageArgs : list any)
    : M (world U) T1 :=
  mustE err messageArgs ;;; ret val1.

Definition MustE2 {T1 T2} (val1 : T1) (val2 : T2)
    (err : error) (messageArgs : list any) : M (world U) (T1 * T2) :=
  mustE err messageArgs ;;; ret (val1, val2).

Definition MustE3 {T1 T2 T3} (val1 : T1) (val2 : T2) (val3 : T3)
    (err : error) (messageArgs : list any) : M (world U) (T1 * T2 * T3) :=
  mustE err messageArgs ;;; ret (val1, val2, val3).

Definition MustE4 {T1 T2 T3 T4} (val1 : T1) (val2 : T2) (val3 : T3) (val4 : T4)
    (err : error) (messageArgs : list any) : M (world U) (T1 * T2 * T3 * T4) :=
  mustE err messageArgs ;;; ret (val1, val2, val3, val4).

Definition MustE5 {T1 T2 T3 T4 T5}
    (val1 : T1) (val2 : T2) (val3 : T3) (val4 : T4) (val5 : T5)
    (err : error) (messageArgs : list any)
    : M (world U) (T1 * T2 * T3 * T4 * T5) :=
  mustE err messageArgs ;;; ret (val1, val2, val3, val4, val5).

Definition MustE6 {T1 T2 T3 T4 T5 T6}
    (val1 : T1) (val2 : T2) (val3 : T3) (val4 : T4) (val5 : T5) (val6 : T6)
    (err : error) (messageArgs : list any)
    : M (world U) (T1 * T2 * T3 * T4 * T5 * T6) :=
  mustE err messageArgs ;;; ret (val1, val2, val3, val4, val5, val6).

End Package.

Arguments LoPanic {U} hook e.
Arguments must {U} Sprintf hook err messageArgs.
Arguments Must {U} Sprintf hook {T} val err messageArgs.
Arguments Must0 {U} Sprintf hook err messageArgs.
Arguments Must1 {U} Sprintf hook {T} val err messageArgs.
Arguments Must2 {U} Sprintf hook {T1 T2} val1 val2 err messageArgs.
Arguments Must3 {U} Sprintf hook {T1 T2 T3} val1 val2 val3 err messageArgs.
Arguments Must4 {U} Sprintf hook {T1 T2 T3 T4} val1 val2 val3 val4
  err messageArgs.
Arguments Must5 {U} Sprintf hook {T1 T2 T3 T4 T5} val1 val2 val3 val4 val5
  err messageArgs.
Arguments Must6 {U} Sprintf hook {T1 T2 T3 T4 T5 T6}
  val1 val2 val3 val4 val5 val6 err messageArgs.
Arguments mustE {U} Sprintf hook err messageArgs.
Arguments MustE {U} Sprintf hook {T} val err messageArgs.
Arguments MustE0 {U} Sprintf hook err messageArgs.
Arguments MustE1 {U} Sprintf hook {T1} val1 err messageArgs.
Arguments MustE2 {U} Sprintf hook {T1 T2} val1 val2 err messageArgs.
Arguments MustE3 {U} Sprintf hook {T1 T2 T3} val1 val2 val3 err messageArgs.
Arguments MustE4 {U} Sprintf hook {T1 T2 T3 T4} val1 val2 val3 val4
  err messageArgs.
Arguments MustE5 {U} Sprintf hook {T1 T2 T3 T4 T5} val1 val2 val3 val4 val5
  err messageArgs.
Arguments MustE6 {U} Sprintf hook {T1 T2 T3 T4 T5 T6}
  val1 val2 val3 val4 val5 val6 err messageArgs.

(** *** The Try family (lines 195-270): any state [S] *)

(** Lines 195-210: named result [ok]. *)
Definition Try {S} (callback : M S error) : M S bool :=
  with_deferred_recover
    true                                            (* ok = true *)
    (err <- lift callback ;;
     match err with
     | Some _ => assign (fun _ => false)            (* ok = false *)
     | None => ret tt
     end)
    (fun r ok =>
       match r with
       | Some _ => false                            (* r != nil: ok = false *)
       | None => ok
       end).

Definition Try0 {S} (callback : M S unit) : M S bool :=
  Try (callback ;;; ret None).

Definition Try1 {S} (callback : M S error) : M S bool :=
  Try callback.

Definition Try2 {S T} (callback : M S (T * error)) : M S bool :=
  Try (x <- callback ;; let '(_, err) := x in ret err).

Definition Try3 {S T R} (callback : M S (T * R * error)) : M S bool :=
  Try (x <- callback ;; let '(_, _, err) := x in ret err).

Definition Try4 {S T R S'} (callback : M S (T * R * S' * error)) : M S bool :=
  Try (x <- callback ;; let '(_, _, _, err) := x in ret err).

Definition Try5 {S T R S' Q} (callback : M S (T * R * S' * Q * error))
    : M S bool :=
  Try (x <- callback ;; let '(_, _, _, _, err) := x in ret err).

Definition Try6 {S T R S' Q U} (callback : M S (T * R * S' * Q * U * error))
    : M S bool :=
  Try (x <- callback ;; let '(_, _, _, _, _, err) := x in ret err).

(** *** The TryOr family (lines 274-387)

    The closure handed to [Try0] assigns to the parameters [fallbackA], ...
    and to the local [ok] of the enclosing function: these are the local
    variables of [with_locals], [ok] last. *)

Definition TryOr1 {S A} (callback : M S (A * error)) (fallbackA : A)
    : M S (A * bool) :=
  r <- with_locals (fallbackA, false)
         (Try0 (x <- lift callback ;;
                let '(a, err) := x in
                match err with
                | None => assign (fun _ => (a, true))
                | Some _ => ret tt
                end)) ;;
  let '(_, (fallbackA, ok)) := r in
  ret (fallbackA, ok).

Definition TryOr {S A} (callback : M S (A * error)) (fallbackA : A)
    : M S (A * bool) :=
  TryOr1 callback fallbackA.

Definition TryOr2 {S A B} (callback : M S (A * B * error))
    (fallbackA : A) (fallbackB : B) : M S (A * B * bool) :=
  r <- with_locals (fallbackA, fallbackB, false)
         (Try0 (x <- lift callback ;;
                let '(a, b, err) := x in
                match err with
                | None => assign (fun _ => (a, b, true))
                | Some _ => ret tt
                end)) ;;
  let '(_, (fallbackA, fallbackB, ok)) := r in
  ret (fallbackA, fallbackB, ok).

Definition TryOr3 {S A B C} (callback : M S (A * B * C * error))
    (fallbackA : A) (fallbackB : B) (fallbackC : C) : M S (A * B * C * bool) :=
  r <- with_locals (fallbackA, fallbackB, fallbackC, false)
         (Try0 (x <- lift callback ;;
                let '(a, b, c, err) := x in
                match err with
                | None => assign (fun _ => (a, b, c, true))
                | Some _ => ret tt
                end)) ;;
  let '(_, (fallbackA, fallbackB, fallbackC, ok)) := r in
  ret (fallbackA, fallbackB, fallbackC, ok).

Definition TryOr4 {S A B C D} (callback : M S (A * B * C * D * error))
    (fallbackA : A) (fallbackB : B) (fallbackC : C) (fallbackD : D)
    : M S (A * B * C * D * bool) :=
  r <- with_locals (fallbackA, fallbackB, fallbackC, fallbackD, false)
         (Try0 (x <- lift callback ;;
                let '(a, b, c, d, err) := x in
                match err with
                | None => assign (fun _ => (a, b, c, d, true))
                | Some _ => ret tt
                end)) ;;
  let '(_, (fallbackA, fallbackB, fallbackC, fallbackD, ok)) := r in
  ret (fallbackA, fallbackB, fallbackC, fallbackD, ok).

Definition TryOr5 {S A B C D E} (callback : M S (A * B * C * D * E * error))
    (fallbackA : A) (fallbackB : B) (fallbackC : C) (fallbackD : D)
    (fallbackE : E) : M S (A * B * C * D * E * bool) :=
  r <- with_locals (fallbackA, fallbackB, fallbackC, fallbackD, fallbackE, false)
         (Try0 (x <- lift callback ;;
                let '(a, b, c, d, e, err) := x in
                match err with
                | None => assign (fun _ => (a, b, c, d, e, true))
                | Some _ => ret tt
                end)) ;;
  let '(_, (fallbackA, fallbackB, fallbackC, fallbackD, fallbackE, ok)) := r in
  ret (fallbackA, fallbackB, fallbackC, fallbackD, fallbackE, ok).

Definition TryOr6 {S A B C D E F}
    (callback : M S (A * B * C * D * E * F * error))
    (fallbackA : A) (fallbackB : B) (fallbackC : C) (fallbackD : D)
    (fallbackE : E) (fallbackF : F) : M S (A * B * C * D * E * F * bool) :=
  r <- with_locals
         (fallbackA, fallbackB, fallbackC, fallbackD, fallbackE, fallbackF, false)
         (Try0 (x <- lift callback ;;
                let '(a, b, c, d, e, f, err) := x in
                match err with
                | None => assign (fun _ => (a, b, c, d, e, f, true))
                | Some _ => ret tt
                end)) ;;
  let '(_, (fallbackA, fallbackB, fallbackC, fallbackD, fallbackE, fallbackF, ok))
    := r in
  ret (fallbackA, fallbackB, fallbackC, fallbackD, fallbackE, fallbackF, ok).

(** Lines 391-408: named results [errorValue] and [ok]. *)
Definition TryWithErrorValue {S} (callback : M S error) : M S (any * bool) :=
  with_deferred_recover
    (None, true)                                    (* errorValue = nil, ok = true *)
    (err <- lift callback ;;
     match err with
     | Some _ => assign (fun _ => (any_of_error err, false))
     | None => ret tt
     end)
    (fun r results =>
       match r with
       | Some _ => (r, false)                       (* ok = false; errorValue = r *)
       | None => results
       end).

(** Lines 412-424. *)
Definition TryCatch {S} (callback : M S error) (catch : M S unit) : M S unit :=
  ok <- Try callback ;;
  if negb ok then catch else ret tt.

Definition TryCatchWithErrorValue {S} (callback : M S error)
    (catch : any -> M S unit) : M S unit :=
  r <- TryWithErrorValue callback ;;
  let '(err, ok) := r in
  if negb ok then catch err else ret tt.

(** *** Validate (lines 9-22) and ErrorsAs (lines 426-432) *)

Section Validation.

Variable Sprintf : string -> list any -> string.

(** The function stored in the package variable [LoErrorF] (line 13:
    [fmt.Errorf] until a program replaces it). *)
Variable LoErrorF : string -> list any -> error.

(** Lines 17-22: the text is formatted by [Sprintf] and then handed to
    [LoErrorF] as a format, without operands. *)
Definition Validate (ok : bool) (format : string) (args : list any) : error :=
  if negb ok then LoErrorF (Sprintf format args) []
  else None.

End Validation.

(** Lines 428-432, [T] being the type argument: [var t T], then
    [errors.As(err, &t)]; [None] in the first component is the zero value
    of [T]. *)
Definition ErrorsAs (T : Errors.errType) (err : error) : option Go.err * bool :=
  let (t, ok) := Errors.As err T in
  (t, ok).

End Lo.

Export Lo.

(** ** Vocabulary of the statements *)

(** A failure indicator that signals success: the nil interface, or the
    boolean [true]. *)
Definition signals_success (indicator : any) : bool :=
  match indicator with
  | None => true
  | Some (DBool true) => true
  | _ => false
  end.

(** The callback returned, and what it returned is the nil error. *)
Definition returns_nil (o : outcome error) : bool :=
  match o with
  | Return None => true
  | _ => false
  end.

(** An indicator of the wrong shape: not nil, not a [bool], not an [error]. *)
Definition wrong_shape (d : dyn) : bool :=
  match d with
  | DBool _ => false
  | DError _ => false
  | _ => true
  end.

(** The payload the hook receives on the failure path of [must], from the
    indicator and the composed message: for the boolean [false] the message,
    or "not ok" when it is empty; for a failure value the message, ": " and
    the failure's text, or the failure's text alone when the message is
    empty.  [None]: the indicator is neither of the two. *)
Definition failure_payload (indicator : any) (composed : string) : option any :=
  match indicator with
  | Some (DBool false) =>
      Some (Some (DString (if composed =? "" then "not ok" else composed)))
  | Some (DError failure) =>
      Some (Some (DString (if composed =? "" then err_Error failure
                           else composed ++ ": " ++ err_Error failure)))
  | _ => None
  end.

(** The diagnostic of [must] for an indicator of the wrong shape. *)
Definition invalid_type_diagnostic (d : dyn) : any :=
  Some (DString ("must: invalid err type '" ++ reflect_Name d
                   ++ "', should either be a bool or an error")).

(** A call of the package, given as a function of the hook in [LoPanic],
    reports [text] in state [w]: under any hook it calls the hook once, with
    the string [text], and returns [v] if the hook returns; under the hook the
    package starts with it panics with the string [text]; and [Try] around
    it stops that panic and returns [false]. *)
Definition reports_and_Try_recovers {U A}
    (call : (any -> M (world U) unit) -> M (world U) A)
    (hook : any -> M (world U) unit) (v : A) (text : string) (w : world U)
    : Prop :=
  let payload := Some (DString text) in
  let called := mkWorld (hook_calls w ++ [payload]) (user w) in
  call hook w = (hook payload ;;; ret v) called
  /\ call LoPanic_init w = (Panicked (DString text), called)
  /\ Try (call LoPanic_init ;;; ret None) w = (Return false, called).

(** What a TryOr call yields from what its callback did, values [V] being the
    tuple of produced values: the produced values and [true] after a nil
    error, the fallback values and [false] after an error or a panic. *)
Definition tryOr_result {S V} (r : outcome (V * error) * S) (fallback : V)
    : outcome (V * bool) * S :=
  match r with
  | (Return (v, None), s') => (Return (v, true), s')
  | (Return (_, Some _), s') => (Return (fallback, false), s')
  | (Panicked _, s') => (Return (fallback, false), s')
  end.

(** [Sprintf] gives what the fragment [Fmt.Sprintf] gives wherever the
    fragment is defined. *)
Definition agrees_with_fragment (Sprintf : string -> list any -> string) : Prop :=
  forall format args s, Fmt.Sprintf format args = Some s -> Sprintf format args = s.

(** A total function that agrees with the fragment. *)
Definition Sprintf_of_fragment (format : string) (args : list any) : string :=
  match Fmt.Sprintf format args with
  | Some s => s
  | None => ""
  end.

(** A program state in which the hook has not been called. *)
Definition fresh : world unit := mkWorld [] tt.

(** The error found under the wrappers of the package that [e] is made
    of: [e] itself when it is not such a wrapper, else what is under its
    [Base]. *)
Fixpoint beneath_wrappers (e : err) : err :=
  match e with
  | wrapErr (mkWrap b _) => beneath_wrappers b
  | _ => e
  end.

(** The texts the wrappers of the package around [beneath_wrappers e] attach,
    outermost first. *)
Fixpoint attached_prefixes (e : err) : list string :=
  match e with
  | wrapErr (mkWrap b a) => a :: attached_prefixes b
  | _ => []
  end.

(** The text built from the attached texts and the text [t] of the error
    under the wrappers: each non-empty attached text, then ": ". *)
Fixpoint prefixed (attached : list string) (t : string) : string :=
  match attached with
  | [] => t
  | a :: rest => if a =? "" then prefixed rest t else a ++ ": " ++ prefixed rest t
  end.

(** No character of [s] is a percent sign. *)
Fixpoint percent_free (s : string) : bool :=
  match s with
  | EmptyString => true
  | String c rest => negb (c =? "%")%char && percent_free rest
  end.

(** The hook returns to its caller for every payload, in every state. *)
Definition hook_returns {U} (hook : any -> M (world U) unit) : Prop :=
  forall e w, exists w', hook e w = (Return tt, w').

(** A hook that returns: the payload is only recorded. *)
Definition quiet_hook {U} (e : any) : M (world U) unit := ret tt.

(** The callback returned, and the error it returned last is nil. *)
Definition succeeded {V} (o : outcome (V * error)) : bool :=
  match o with
  | Return (_, None) => true
  | _ => false
  end.

(** The [ok] result of a TryOr call, its values forgotten. *)
Definition ok_of {S V} (r : outcome (V * bool) * S) : outcome bool * S :=
  (match fst r with
   | Return (_, ok) => Return ok
   | Panicked p => Panicked p
   end, snd r).

(** ** Basic facts *)

Lemma append_empty_r (s : string) : s ++ "" = s.
Proof.
  induction s as [|c s IH]; simpl; [reflexivity|now rewrite IH].
Qed.

(** The fragment on the format "%+v" with one operand. *)
Lemma Sprintf_plus_v (x : any) (s : string) :
  Fmt.fmt_v true x = Some s -> Fmt.Sprintf "%+v" [x] = Some s.
Proof.
  intro H. cbn. unfold Fmt.directive. cbn. rewrite H. cbn.
  now rewrite append_empty_r.
Qed.

Lemma Sprintf_of_fragment_agrees : agrees_with_fragment Sprintf_of_fragment.
Proof.
  intros format args s H. unfold Sprintf_of_fragment. now rewrite H.
Qed.

(** [Try] never panics; it reports whether the callback returned nil, and
    leaves the state the callback left. *)
Lemma Try_eq {S} (callback : M S error) (s : S) :
  Try callback s = (Return (returns_nil (fst (callback s))), snd (callback s)).
Proof.
  unfold Try, with_deferred_recover, bind, lift, assign, ret.
  destruct (callback s) as [[[e|]|p] s']; reflexivity.
Qed.

Lemma Try0_eq {S} (callback : M S unit) (s : S) :
  Try0 callback s
  = (Return (match fst (callback s) with Return _ => true | Panicked _ => false end),
     snd (callback s)).
Proof.
  unfold Try0. rewrite Try_eq. unfold bind, ret.
  destruct (callback s) as [[[]|p] s']; reflexivity.
Qed.

Lemma TryWithErrorValue_eq {S} (callback : M S error) (s : S) :
  TryWithErrorValue callback s
  = (Return (match fst (callback s) with
             | Return None => (None, true)
             | Return (Some e) => (Some (DError e), false)
             | Panicked p => (Some p, false)
             end),
     snd (callback s)).
Proof.
  unfold TryWithErrorValue, with_deferred_recover, bind, lift, assign, ret.
  destruct (callback s) as [[[e|]|p] s']; reflexivity.
Qed.

(** Unfolds a TryOr call down to a case analysis on its callback. *)
Ltac TryOr_unfold :=
  unfold tryOr_result, with_locals, bind, ret;
  rewrite Try0_eq;
  unfold bind, lift, assign, ret.

(** On a success indicator [must] returns at once, in the same state. *)
Lemma must_success {U} Sprintf hook (indicator : any) args (w : world U) :
  signals_success indicator = true ->
  must Sprintf hook indicator args w = (Return tt, w).
Proof.
  destruct indicator as [[[|]| | | |]|]; simpl; intro H;
    try discriminate H; reflexivity.
Qed.

(** With the hook the package starts with, [must] panics on every other
    indicator. *)
Lemma must_init_panics {U} Sprintf (indicator : any) args (w : world U) :
  signals_success indicator = false ->
  exists p w', must Sprintf LoPanic_init indicator args w = (Panicked p, w').
Proof.
  destruct indicator as [[[|]| | | |]|]; simpl; intro H; try discriminate H;
    unfold bind, of_outcome, LoPanic, LoPanic_init, go_panic;
    try (destruct (messageFromMsgAndArgs Sprintf args) as [m|p]);
    try (destruct (m =? ""); simpl);
    eauto.
Qed.

Lemma mustE_init_panics {U} Sprintf (F : err) args (w : world U) :
  exists p w', mustE Sprintf LoPanic_init (Some F) args w = (Panicked p, w').
Proof.
  unfold mustE, bind, of_outcome, LoPanic, LoPanic_init, go_panic.
  destruct (messageFromMsgAndArgs Sprintf args) as [m|p]; eauto.
Qed.

(** ** Try *)

(** C1.  [Try(callback)] always returns, never panics: it returns [true]
    exactly when the callback returned a nil error without panicking and
    [false] otherwise, so a panic of the callback ends at [Try].  A callback
    that calls a Must function (with the hook the package starts with)
    or a MustE function makes [Try] return [false] unless the indicator
    signals success. *)
Theorem Try_true_iff_callback_returns_nil
    {U S} (Sprintf : string -> list any -> string)
    (callback : M S error) (s : S)
    (indicator : any) (failure : error) (messageArgs : list any) (w : world U) :
  Try callback s = (Return (returns_nil (fst (callback s))), snd (callback s))
  /\ (fst (Try callback s) = Return true <-> fst (callback s) = Return None)
  /\ (forall p s', callback s = (Panicked p, s') ->
        Try callback s = (Return false, s'))
  /\ (forall p s', Try callback s <> (Panicked p, s'))
  /\ Try (ret None) s = (Return true, s)
  /\ (forall someFailure : err,
        Try (ret (Some someFailure)) s = (Return false, s))
  /\ (exists w',
        Try (Must0 Sprintf LoPanic_init indicator messageArgs ;;; ret None) w
        = (Return (signals_success indicator), w'))
  /\ (exists w',
        Try (MustE0 Sprintf LoPanic_init failure messageArgs ;;; ret None) w
        = (Return (match failure with None => true | Some _ => false end), w')).
Proof.
  split; [apply Try_eq|].
  split.
  { rewrite Try_eq. destruct (callback s) as [[[e|]|p] s']; simpl;
      split; intro H; try discriminate H; reflexivity. }
  split; [intros p s' H; rewrite Try_eq, H; reflexivity|].
  split; [intros p s'; rewrite Try_eq; discriminate|].
  split; [reflexivity|]. split; [reflexivity|].
  split.
  - rewrite Try_eq. unfold Must0, bind, ret.
    destruct (signals_success indicator) eqn:Hs.
    + rewrite (must_success Sprintf _ _ _ _ Hs). eexists; reflexivity.
    + destruct (must_init_panics Sprintf indicator messageArgs w Hs)
        as (p & w' & H).
      rewrite H. eexists; reflexivity.
  - rewrite Try_eq. unfold MustE0, bind, ret.
    destruct failure as [F|].
    + destruct (mustE_init_panics Sprintf F messageArgs w) as (p & w' & H).
      rewrite H. eexists; reflexivity.
    + eexists; reflexivity.
Qed.

(** ** The Must family on success *)

(** C2.  When the indicator is nil or the boolean [true], [Must] and
    [Must0] .. [Must6] return the values they were given and leave the program
    state, the record of hook calls included, as it was: the hook is not
    called, whatever the message arguments. *)
Theorem Must_success_returns_values
    {U T1 T2 T3 T4 T5 T6} (Sprintf : string -> list any -> string)
    (hook : any -> M (world U) unit)
    (v1 : T1) (v2 : T2) (v3 : T3) (v4 : T4) (v5 : T5) (v6 : T6)
    (indicator : any) (messageArgs : list any) (w : world U) :
  signals_success indicator = true ->
  Must0 Sprintf hook indicator messageArgs w = (Return tt, w)
  /\ Must Sprintf hook v1 indicator messageArgs w = (Return v1, w)
  /\ Must1 Sprintf hook v1 indicator messageArgs w = (Return v1, w)
  /\ Must2 Sprintf hook v1 v2 indicator messageArgs w = (Return (v1, v2), w)
  /\ Must3 Sprintf hook v1 v2 v3 indicator messageArgs w
     = (Return (v1, v2, v3), w)
  /\ Must4 Sprintf hook v1 v2 v3 v4 indicator messageArgs w
     = (Return (v1, v2, v3, v4), w)
  /\ Must5 Sprintf hook v1 v2 v3 v4 v5 indicator messageArgs w
     = (Return (v1, v2, v3, v4, v5), w)
  /\ Must6 Sprintf hook v1 v2 v3 v4 v5 v6 indicator messageArgs w
     = (Return (v1, v2, v3, v4, v5, v6), w).
Proof.
  intro Hs.
  unfold Must0, Must1, Must, Must2, Must3, Must4, Must5, Must6, bind, ret.
  rewrite (must_success Sprintf hook indicator messageArgs w Hs).
  repeat split.
Qed.

Lemma Must_success_returns_values_witness :
  signals_success (Some (DBool true)) = true
  /\ Must2 Sprintf_of_fragment LoPanic_init 7%Z "seven" (Some (DBool true))
       [Some (DInt 1); Some (DInt 2)] fresh
     = (Return (7%Z, "seven"), fresh).
Proof.
  split; [reflexivity|].
  apply (Must_success_returns_values (T1:=Z) (T2:=string) (T3:=unit) (T4:=unit)
           (T5:=unit) (T6:=unit)
           Sprintf_of_fragment LoPanic_init 7%Z "seven" tt tt tt tt
           (Some (DBool true)) [Some (DInt 1); Some (DInt 2)] fresh).
  reflexivity.
Defined.

(** ** The Must family on failure *)

(** [must] with the indicator [false] and the message arguments [3, 4]
    under the hook the package starts with: the assertion
    [msgAndArgs[0].(string)] panics while the message is composed, and the
    hook is not called. *)
Lemma must_false_nonstring_format_skips_hook :
  must Sprintf_of_fragment LoPanic_init (Some (DBool false))
    [Some (DInt 3); Some (DInt 4)] fresh
  = (Panicked (typeAssertionError (Some (DInt 3))), fresh)
  /\ hook_calls
       (snd (must Sprintf_of_fragment LoPanic_init (Some (DBool false))
               [Some (DInt 3); Some (DInt 4)] fresh)) = []
  /\ hook_calls
       (snd (must Sprintf_of_fragment LoPanic_init
               (Some (DError (errorString "boom")))
               [Some (DInt 3); Some (DInt 4)] fresh)) = [].
Proof. repeat split. Qed.

(** C3, amended.  Whenever the message arguments compose to a message [m]
    (fewer than two arguments, or a string first), a call of [must], [Must]
    or [Must0] .. [Must6] on the failure path calls the hook once, with the
    payload [failure_payload] describes: [m], or "not ok" when [m] is empty,
    for the boolean [false]; [m ++ ": " ++ failure.Error()], or
    [failure.Error()] alone when [m] is empty, for a failure value.  The
    values are returned only if the hook returns. *)
Theorem must_failure_calls_hook_with_payload
    {U T1 T2 T3 T4 T5 T6} (Sprintf : string -> list any -> string)
    (hook : any -> M (world U) unit)
    (v1 : T1) (v2 : T2) (v3 : T3) (v4 : T4) (v5 : T5) (v6 : T6)
    (indicator : any) (messageArgs : list any) (m : string) (payload : any)
    (w : world U) :
  messageFromMsgAndArgs Sprintf messageArgs = Return m ->
  failure_payload indicator m = Some payload ->
  let called := mkWorld (hook_calls w ++ [payload]) (user w) in
  must Sprintf hook indicator messageArgs w = hook payload called
  /\ Must0 Sprintf hook indicator messageArgs w = hook payload called
  /\ Must Sprintf hook v1 indicator messageArgs w
     = (hook payload ;;; ret v1) called
  /\ Must1 Sprintf hook v1 indicator messageArgs w
     = (hook payload ;;; ret v1) called
  /\ Must2 Sprintf hook v1 v2 indicator messageArgs w
     = (hook payload ;;; ret (v1, v2)) called
  /\ Must3 Sprintf hook v1 v2 v3 indicator messageArgs w
     = (hook payload ;;; ret (v1, v2, v3)) called
  /\ Must4 Sprintf hook v1 v2 v3 v4 indicator messageArgs w
     = (hook payload ;;; ret (v1, v2, v3, v4)) called
  /\ Must5 Sprintf hook v1 v2 v3 v4 v5 indicator messageArgs w
     = (hook payload ;;; ret (v1, v2, v3, v4, v5)) called
  /\ Must6 Sprintf hook v1 v2 v3 v4 v5 v6 indicator messageArgs w
     = (hook payload ;;; ret (v1, v2, v3, v4, v5, v6)) called.
Proof.
  intros Hm Hp called.
  assert (Hmust : must Sprintf hook indicator messageArgs w = hook payload called).
  { destruct indicator as [[[|]| | | |]|]; try discriminate Hp;
      simpl in Hp; injection Hp as <-;
      unfold must, bind, of_outcome; rewrite Hm; simpl;
      destruct (m =? ""); reflexivity. }
  unfold Must0, Must1, Must, Must2, Must3, Must4, Must5, Must6.
  unfold bind at 1 3 5 7 9 11 13. rewrite Hmust.
  unfold bind. repeat split.
Qed.

Lemma must_failure_calls_hook_with_payload_witness :
  messageFromMsgAndArgs Sprintf_of_fragment [Some (DString "ctx")] = Return "ctx"
  /\ failure_payload (Some (DError (errorString "boom"))) "ctx"
     = Some (Some (DString "ctx: boom"))
  /\ must Sprintf_of_fragment LoPanic_init (Some (DError (errorString "boom")))
       [Some (DString "ctx")] fresh
     = (Panicked (DString "ctx: boom"),
        mkWorld [Some (DString "ctx: boom")] tt).
Proof.
  split; [reflexivity|]. split; [reflexivity|].
  exact (proj1
    (must_failure_calls_hook_with_payload (T1:=unit) (T2:=unit) (T3:=unit)
       (T4:=unit) (T5:=unit) (T6:=unit)
       Sprintf_of_fragment LoPanic_init tt tt tt tt tt tt
       (Some (DError (errorString "boom"))) [Some (DString "ctx")]
       "ctx" (Some (DString "ctx: boom")) fresh eq_refl eq_refl)).
Defined.

(** ** mustE and the failure wrapper *)

(** [mustE] with a failure and the message arguments [3, 4] under the hook
    the package starts with: the panic carries the runtime's type-assertion
    error, not a wrapper around the failure, and the hook is not called. *)
Lemma mustE_nonstring_format_panics_without_wrapper :
  mustE Sprintf_of_fragment LoPanic_init (Some (errorString "boom"))
    [Some (DInt 3); Some (DInt 4)] fresh
  = (Panicked (typeAssertionError (Some (DInt 3))), fresh)
  /\ (forall attach,
        typeAssertionError (Some (DInt 3))
        <> DError (wrapErr (mkWrap (errorString "boom") attach)))
  /\ hook_calls
       (snd (mustE Sprintf_of_fragment LoPanic_init (Some (errorString "boom"))
               [Some (DInt 3); Some (DInt 4)] fresh)) = [].
Proof.
  split; [reflexivity|]. split; [|reflexivity].
  intros attach H. discriminate H.
Qed.

(** C4, amended.  Whenever the message arguments compose to a message [m],
    [mustE] and [MustE], [MustE0] .. [MustE6] on a non-nil failure [F] call
    the hook once with the wrapper whose [Base] is [F] and whose [Attach] is
    [m]; under the hook the package starts with the call panics with that
    wrapper.  [Unwrap] of the wrapper is [F]. *)
Theorem mustE_failure_wraps_and_unwraps
    {U T1 T2 T3 T4 T5 T6} (Sprintf : string -> list any -> string)
    (hook : any -> M (world U) unit)
    (v1 : T1) (v2 : T2) (v3 : T3) (v4 : T4) (v5 : T5) (v6 : T6)
    (F : err) (messageArgs : list any) (m : string) (w : world U) :
  messageFromMsgAndArgs Sprintf messageArgs = Return m ->
  let wrapper := mkWrap F m in
  let payload := Some (DError (wrapErr wrapper)) in
  let called := mkWorld (hook_calls w ++ [payload]) (user w) in
  (Base wrapper = F /\ Attach wrapper = m)
  /\ wrapErrPrefixMsg_Unwrap wrapper = Some F
  /\ errors_Unwrap (wrapErr wrapper) = Some F
  /\ mustE Sprintf LoPanic_init (Some F) messageArgs w
     = (Panicked (DError (wrapErr wrapper)), called)
  /\ mustE Sprintf hook (Some F) messageArgs w = hook payload called
  /\ MustE0 Sprintf hook (Some F) messageArgs w = hook payload called
  /\ MustE Sprintf hook v1 (Some F) messageArgs w
     = (hook payload ;;; ret v1) called
  /\ MustE1 Sprintf hook v1 (Some F) messageArgs w
     = (hook payload ;;; ret v1) called
  /\ MustE2 Sprintf hook v1 v2 (Some F) messageArgs w
     = (hook payload ;;; ret (v1, v2)) called
  /\ MustE3 Sprintf hook v1 v2 v3 (Some F) messageArgs w
     = (hook payload ;;; ret (v1, v2, v3)) called
  /\ MustE4 Sprintf hook v1 v2 v3 v4 (Some F) messageArgs w
     = (hook payload ;;; ret (v1, v2, v3, v4)) called
  /\ MustE5 Sprintf hook v1 v2 v3 v4 v5 (Some F) messageArgs w
     = (hook payload ;;; ret (v1, v2, v3, v4, v5)) called
  /\ MustE6 Sprintf hook v1 v2 v3 v4 v5 v6 (Some F) messageArgs w
     = (hook payload ;;; ret (v1, v2, v3, v4, v5, v6)) called.
Proof.
  intros Hm wrapper payload called.
  assert (HmustE : forall h, mustE Sprintf h (Some F) messageArgs w = h payload called).
  { intro h. unfold mustE, bind, of_outcome. rewrite Hm. reflexivity. }
  split; [split; reflexivity|].
  split; [reflexivity|]. split; [reflexivity|].
  split; [rewrite HmustE; reflexivity|].
  unfold MustE0, MustE1, MustE, MustE2, MustE3, MustE4, MustE5, MustE6.
  unfold bind at 1 3 5 7 9 11 13. rewrite HmustE.
  unfold bind. repeat split.
Qed.

Lemma mustE_failure_wraps_and_unwraps_witness :
  messageFromMsgAndArgs Sprintf_of_fragment
    [Some (DString "ctx %d"); Some (DInt 7)] = Return "ctx 7"
  /\ mustE Sprintf_of_fragment LoPanic_init (Some (errorString "boom"))
       [Some (DString "ctx %d"); Some (DInt 7)] fresh
     = (Panicked (DError (wrapErr (mkWrap (errorString "boom") "ctx 7"))),
        mkWorld [Some (DError (wrapErr (mkWrap (errorString "boom") "ctx 7")))] tt).
Proof.
  split; [reflexivity|].
  exact (proj1 (proj2 (proj2 (proj2
    (mustE_failure_wraps_and_unwraps (T1:=unit) (T2:=unit) (T3:=unit)
       (T4:=unit) (T5:=unit) (T6:=unit)
       Sprintf_of_fragment LoPanic_init tt tt tt tt tt tt
       (errorString "boom") [Some (DString "ctx %d"); Some (DInt 7)]
       "ctx 7" fresh eq_refl))))).
Defined.

(** ** The message composer *)

(** C7.  [messageFromMsgAndArgs] gives the empty string for no argument; the
    argument itself for a single string; [Sprintf("%+v", x)], the default
    display form, for a single argument of another type; [Sprintf] of the
    first argument as format and the others as operands for two or more
    arguments with a string first; and it panics with the runtime's
    type-assertion error for two or more arguments whose first is not a
    string.  With a [Sprintf] that agrees with the fragment [Fmt.Sprintf],
    the arguments ["a=%d, b=%s", 3, "x"] compose to "a=3, b=x". *)
Theorem messageFromMsgAndArgs_cases (Sprintf : string -> list any -> string) :
  agrees_with_fragment Sprintf ->
  messageFromMsgAndArgs Sprintf [] = Return ""
  /\ (forall s, messageFromMsgAndArgs Sprintf [Some (DString s)] = Return s)
  /\ (forall x, assert_string x = None ->
        messageFromMsgAndArgs Sprintf [x] = Return (Sprintf "%+v" [x]))
  /\ (forall z, messageFromMsgAndArgs Sprintf [Some (DInt z)]
                = Return (Fmt.decimal z))
  /\ (forall e, messageFromMsgAndArgs Sprintf [Some (DError e)]
                = Return (err_Error e))
  /\ (forall format a rest,
        messageFromMsgAndArgs Sprintf (Some (DString format) :: a :: rest)
        = Return (Sprintf format (a :: rest)))
  /\ messageFromMsgAndArgs Sprintf
       [Some (DString "a=%d, b=%s"); Some (DInt 3); Some (DString "x")]
     = Return "a=3, b=x"
  /\ messageFromMsgAndArgs Sprintf [Some (DString "plain")] = Return "plain"
  /\ (forall x a rest, assert_string x = None ->
        messageFromMsgAndArgs Sprintf (x :: a :: rest)
        = Panicked (typeAssertionError x)).
Proof.
  intro Hfrag.
  split; [reflexivity|].
  split; [reflexivity|].
  split; [intros x Hx; simpl; rewrite Hx; reflexivity|].
  split; [intro z; simpl; f_equal; apply Hfrag, Sprintf_plus_v; reflexivity|].
  split; [intro e; simpl; f_equal; apply Hfrag, Sprintf_plus_v; reflexivity|].
  split; [reflexivity|].
  split; [simpl; f_equal; apply Hfrag; reflexivity|].
  split; [reflexivity|].
  intros x a rest Hx. simpl. rewrite Hx. reflexivity.
Qed.

Lemma messageFromMsgAndArgs_cases_witness :
  messageFromMsgAndArgs Sprintf_of_fragment
    [Some (DString "a=%d, b=%s"); Some (DInt 3); Some (DString "x")]
  = Return "a=3, b=x".
Proof.
  exact (proj1 (proj2 (proj2 (proj2 (proj2 (proj2 (proj2
    (messageFromMsgAndArgs_cases Sprintf_of_fragment
       Sprintf_of_fragment_agrees)))))))).
Defined.

(** ** An indicator of the wrong shape *)

(** [Try] around [Must0(42)] under the hook the package starts with: the
    panic raised for the invalid indicator stops at [Try], which returns
    [false]; the program goes on. *)
Lemma Try_recovers_invalid_indicator_panic :
  Must0 Sprintf_of_fragment LoPanic_init (Some (DInt 42)) [] fresh
  = (Panicked (DString
       "must: invalid err type 'int', should either be a bool or an error"),
     record_call (invalid_type_diagnostic (DInt 42)) fresh)
  /\ Try (Must0 Sprintf_of_fragment LoPanic_init (Some (DInt 42)) [] ;;; ret None)
       fresh
     = (Return false, record_call (invalid_type_diagnostic (DInt 42)) fresh).
Proof. split; reflexivity. Qed.

(** A call that is [must] on a wrong-shaped indicator followed by the return
    of [v] reports the diagnostic, and [Try] recovers from it. *)
Lemma wrong_shape_call_reports {U A} (Sprintf : string -> list any -> string)
    (call : (any -> M (world U) unit) -> M (world U) A)
    (hook : any -> M (world U) unit)
    (d : dyn) (messageArgs : list any) (v : A) (w : world U) :
  wrong_shape d = true ->
  (forall h, call h w = (must Sprintf h (Some d) messageArgs ;;; ret v) w) ->
  reports_and_Try_recovers call hook v
    ("must: invalid err type '" ++ reflect_Name d
       ++ "', should either be a bool or an error") w.
Proof.
  intros Hd Hcall.
  assert (Hmust : forall h,
            must Sprintf h (Some d) messageArgs w
            = h (invalid_type_diagnostic d) (record_call (invalid_type_diagnostic d) w)).
  { intro h. destruct d; try discriminate Hd; reflexivity. }
  unfold reports_and_Try_recovers. cbv zeta.
  split; [rewrite Hcall; unfold bind at 1; rewrite Hmust; reflexivity|].
  split.
  - rewrite Hcall. unfold bind. rewrite Hmust. reflexivity.
  - rewrite Try_eq. unfold bind at 1 2. rewrite Hcall. unfold bind.
    rewrite Hmust. reflexivity.
Qed.

(** C8, amended.  For an indicator that is not nil, not a [bool] and not an
    [error], [must], [Must] and [Must0] .. [Must6] call the hook once,
    whatever the message arguments, with the diagnostic
    "must: invalid err type 'N', should either be a bool or an error", [N]
    being what [reflect.TypeOf(err).Name()] gives: the name of a defined type
    without its package, empty for a type without a name such as a pointer.
    Under the hook the package starts with this is an ordinary panic: an
    enclosing [Try] stops it and returns [false]. *)
Theorem must_wrong_shape_diagnostic_is_recoverable
    {U T1 T2 T3 T4 T5 T6} (Sprintf : string -> list any -> string)
    (hook : any -> M (world U) unit)
    (v1 : T1) (v2 : T2) (v3 : T3) (v4 : T4) (v5 : T5) (v6 : T6)
    (d : dyn) (messageArgs : list any) (w : world U) :
  wrong_shape d = true ->
  let text := "must: invalid err type '" ++ reflect_Name d
                ++ "', should either be a bool or an error" in
  let payload := Some (DString text) in
  let called := mkWorld (hook_calls w ++ [payload]) (user w) in
  must Sprintf hook (Some d) messageArgs w = hook payload called
  /\ Must0 Sprintf LoPanic_init (Some d) messageArgs w
     = (Panicked (DString text), called)
  /\ Try (Must0 Sprintf LoPanic_init (Some d) messageArgs ;;; ret None) w
     = (Return false, called)
  /\ reports_and_Try_recovers
       (fun h => must Sprintf h (Some d) messageArgs) hook tt text w
  /\ reports_and_Try_recovers
       (fun h => Must0 Sprintf h (Some d) messageArgs) hook tt text w
  /\ reports_and_Try_recovers
       (fun h => Must Sprintf h v1 (Some d) messageArgs) hook v1 text w
  /\ reports_and_Try_recovers
       (fun h => Must1 Sprintf h v1 (Some d) messageArgs) hook v1 text w
  /\ reports_and_Try_recovers
       (fun h => Must2 Sprintf h v1 v2 (Some d) messageArgs)
       hook (v1, v2) text w
  /\ reports_and_Try_recovers
       (fun h => Must3 Sprintf h v1 v2 v3 (Some d) messageArgs)
       hook (v1, v2, v3) text w
  /\ reports_and_Try_recovers
       (fun h => Must4 Sprintf h v1 v2 v3 v4 (Some d) messageArgs)
       hook (v1, v2, v3, v4) text w
  /\ reports_and_Try_recovers
       (fun h => Must5 Sprintf h v1 v2 v3 v4 v5 (Some d) messageArgs)
       hook (v1, v2, v3, v4, v5) text w
  /\ reports_and_Try_recovers
       (fun h => Must6 Sprintf h v1 v2 v3 v4 v5 v6 (Some d) messageArgs)
       hook (v1, v2, v3, v4, v5, v6) text w.
Proof.
  intros Hd text payload called.
  assert (Hmust : forall h, must Sprintf h (Some d) messageArgs w = h payload called).
  { intro h. destruct d; try discriminate Hd; reflexivity. }
  assert (Hunit : forall h,
            must Sprintf h (Some d) messageArgs w
            = (must Sprintf h (Some d) messageArgs ;;; ret tt) w).
  { intro h. unfold bind, ret.
    destruct (must Sprintf h (Some d) messageArgs w) as [[[]|p] w'];
      reflexivity. }
  split; [apply Hmust|].
  split; [unfold Must0; rewrite Hmust; reflexivity|].
  split; [rewrite Try_eq; unfold Must0, bind; rewrite Hmust; reflexivity|].
  split; [apply wrong_shape_call_reports
             with (Sprintf := Sprintf) (messageArgs := messageArgs);
           [exact Hd|exact Hunit]|].
  split; [apply wrong_shape_call_reports
             with (Sprintf := Sprintf) (messageArgs := messageArgs);
           [exact Hd|exact Hunit]|].
  repeat match goal with |- _ /\ _ => split end;
    apply wrong_shape_call_reports
      with (Sprintf := Sprintf) (messageArgs := messageArgs);
    try exact Hd; intro h; reflexivity.
Qed.

Lemma must_wrong_shape_diagnostic_is_recoverable_witness :
  wrong_shape (DOther (mkType "*lo.Foo" "") "&{}") = true
  /\ Try (Must0 Sprintf_of_fragment LoPanic_init
            (Some (DOther (mkType "*lo.Foo" "") "&{}"))
            [Some (DString "ctx")] ;;; ret None) fresh
     = (Return false,
        mkWorld
          [Some (DString
             "must: invalid err type '', should either be a bool or an error")]
          tt).
Proof.
  split; [reflexivity|].
  exact (proj1 (proj2 (proj2
    (must_wrong_shape_diagnostic_is_recoverable (T1:=unit) (T2:=unit)
       (T3:=unit) (T4:=unit) (T5:=unit) (T6:=unit)
       Sprintf_of_fragment LoPanic_init tt tt tt tt tt tt
       (DOther (mkType "*lo.Foo" "") "&{}") [Some (DString "ctx")] fresh
       eq_refl)))).
Defined.

(** ** The failure wrapper's text *)

(** C9.  The text of a wrapper with base [B] and attached prefix [A] is the
    text of [B] when [A] is empty, and [A ++ ": " ++ text of B] otherwise;
    [String] and the [Error] of the wrapper seen as an [error] give the same
    text. *)
Theorem wrapErrPrefixMsg_Error_text (B : err) (A : string) :
  wrapErrPrefixMsg_Error (mkWrap B "") = err_Error B
  /\ (forall c rest,
        wrapErrPrefixMsg_Error (mkWrap B (String c rest))
        = String c rest ++ ": " ++ err_Error B)
  /\ wrapErrPrefixMsg_Error (mkWrap B A)
     = (if A =? "" then err_Error B else A ++ ": " ++ err_Error B)
  /\ (A = "" -> wrapErrPrefixMsg_Error (mkWrap B A) = err_Error B)
  /\ (A <> "" -> wrapErrPrefixMsg_Error (mkWrap B A) = A ++ ": " ++ err_Error B)
  /\ wrapErrPrefixMsg_String (mkWrap B A) = wrapErrPrefixMsg_Error (mkWrap B A)
  /\ err_Error (wrapErr (mkWrap B A)) = wrapErrPrefixMsg_Error (mkWrap B A).
Proof.
  split; [reflexivity|].
  split; [reflexivity|].
  split; [simpl; destruct (A =? ""); reflexivity|].
  split; [intros ->; reflexivity|].
  split; [|split; reflexivity].
  intro HA. simpl. destruct (String.eqb_spec A "") as [E|_];
    [contradiction|reflexivity].
Qed.

(** ** Try and TryWithErrorValue on a panic or a returned failure *)

(** C10.  When the callback panics with payload [p] (of any dynamic type, from
    any code), or returns the non-nil failure [e], [Try] returns [false] and
    [TryWithErrorValue] returns [false] together with that payload, or that
    failure, itself.  A panic with a plain string and a [panic(nil)] are
    caught like any other. *)
Theorem TryWithErrorValue_returns_payload
    {S} (callback : M S error) (s s' : S) (cause : dyn + err) :
  callback s
  = (match cause with
     | inl p => Panicked p
     | inr e => Return (Some e)
     end, s') ->
  Try callback s = (Return false, s')
  /\ TryWithErrorValue callback s
     = (Return (Some (match cause with
                      | inl p => p
                      | inr e => DError e
                      end), false), s')
  /\ (forall msg : string,
        Try (go_panic (Some (DString msg))) s = (Return false, s)
        /\ TryWithErrorValue (go_panic (Some (DString msg))) s
           = (Return (Some (DString msg), false), s))
  /\ Try (go_panic None) s = (Return false, s).
Proof.
  intro H. rewrite Try_eq, TryWithErrorValue_eq, H.
  destruct cause as [p|e]; simpl; repeat split.
Qed.

Lemma TryWithErrorValue_returns_payload_witness :
  TryWithErrorValue
    (Must0 Sprintf_of_fragment LoPanic_init (Some (DBool false)) [] ;;; ret None)
    fresh
  = (Return (Some (DString "not ok"), false), mkWorld [Some (DString "not ok")] tt).
Proof.
  exact (proj1 (proj2
    (TryWithErrorValue_returns_payload
       (Must0 Sprintf_of_fragment LoPanic_init (Some (DBool false)) [] ;;; ret None)
       fresh (mkWorld [Some (DString "not ok")] tt) (inl (DString "not ok"))
       eq_refl))).
Defined.

(** ** The TryOr family *)

(** C5.  [TryOr1] .. [TryOr6] (and [TryOr]) return the values the callback
    produced, with [true], when the callback returns a nil error; they return
    the fallback values they were given, with [false], when the callback
    returns a non-nil error or panics.  They never panic, and the state is the
    one the callback left. *)
Theorem TryOr_values_or_fallback
    {S A B C D E F}
    (cb1 : M S (A * error)) (cb2 : M S (A * B * error))
    (cb3 : M S (A * B * C * error)) (cb4 : M S (A * B * C * D * error))
    (cb5 : M S (A * B * C * D * E * error))
    (cb6 : M S (A * B * C * D * E * F * error))
    (fa : A) (fb : B) (fc : C) (fd : D) (fe : E) (ff : F) (s : S) :
  TryOr1 cb1 fa s = tryOr_result (cb1 s) fa
  /\ TryOr cb1 fa s = tryOr_result (cb1 s) fa
  /\ TryOr2 cb2 fa fb s = tryOr_result (cb2 s) (fa, fb)
  /\ TryOr3 cb3 fa fb fc s = tryOr_result (cb3 s) (fa, fb, fc)
  /\ TryOr4 cb4 fa fb fc fd s = tryOr_result (cb4 s) (fa, fb, fc, fd)
  /\ TryOr5 cb5 fa fb fc fd fe s = tryOr_result (cb5 s) (fa, fb, fc, fd, fe)
  /\ TryOr6 cb6 fa fb fc fd fe ff s
     = tryOr_result (cb6 s) (fa, fb, fc, fd, fe, ff)
  /\ (forall (a : A) (e : err),
        TryOr1 (ret (a, None)) fa s = (Return (a, true), s)
        /\ TryOr1 (ret (a, Some e)) fa s = (Return (fa, false), s)
        /\ TryOr1 (go_panic (Some (DError e))) fa s = (Return (fa, false), s)).
Proof.
  split; [unfold TryOr1; TryOr_unfold;
          destruct (cb1 s) as [[[v [e|]]|p] s']; reflexivity|].
  split; [unfold TryOr, TryOr1; TryOr_unfold;
          destruct (cb1 s) as [[[v [e|]]|p] s']; reflexivity|].
  split; [unfold TryOr2; TryOr_unfold;
          destruct (cb2 s) as [[[[a b] [e|]]|p] s']; reflexivity|].
  split; [unfold TryOr3; TryOr_unfold;
          destruct (cb3 s) as [[[[[a b] c] [e|]]|p] s']; reflexivity|].
  split; [unfold TryOr4; TryOr_unfold;
          destruct (cb4 s) as [[[[[[a b] c] d] [e|]]|p] s']; reflexivity|].
  split; [unfold TryOr5; TryOr_unfold;
          destruct (cb5 s) as [[[[[[[a b] c] d] e'] [e|]]|p] s']; reflexivity|].
  split; [unfold TryOr6; TryOr_unfold;
          destruct (cb6 s) as [[[[[[[[a b] c] d] e'] f] [e|]]|p] s'];
          reflexivity|].
  intros a e. repeat split.
Qed.

(** ** Nested Try calls *)

(** C6.  An inner [Try] returns its verdict to the code that follows it and
    nothing else: the rest of the outer callback runs from the state the inner
    callback left, a panic raised by that rest is not stopped by the inner
    [Try], and the outer [Try] stops it.  For
    [Try(func() error { Try(func() error { return someFailure });
    must(false); return nil })] under the hook the package starts with, the
    inner [Try] returns [false], [must(false)] still calls the hook with
    "not ok" and panics, and the outer [Try] returns [false]. *)
Theorem Try_nested_boundaries
    {U S} (Sprintf : string -> list any -> string)
    (inner : M S error) (rest : bool -> M S error) (s : S)
    (someFailure : err) (w : world U) :
  (Try (ok <- Try inner ;; rest ok) s
   = Try (rest (returns_nil (fst (inner s)))) (snd (inner s)))
  /\ (forall p, (Try inner ;;; go_panic (A:=error) (Some p)) s
                = (Panicked p, snd (inner s)))
  /\ (forall p, Try (Try inner ;;; go_panic (Some p)) s
                = (Return false, snd (inner s)))
  /\ Try (ret (Some someFailure)) w = (Return false, w)
  /\ (Try (ret (Some someFailure)) ;;;
      must Sprintf LoPanic_init (Some (DBool false)) []) w
     = (Panicked (DString "not ok"), record_call (Some (DString "not ok")) w)
  /\ Try (Try (ret (Some someFailure)) ;;;
          must Sprintf LoPanic_init (Some (DBool false)) [] ;;;
          ret None) w
     = (Return false, record_call (Some (DString "not ok")) w).
Proof.
  split.
  { rewrite (Try_eq (ok <- Try inner ;; rest ok)).
    unfold bind at 1 2. rewrite (Try_eq inner). cbv beta iota.
    rewrite (Try_eq (rest _)). reflexivity. }
  split; [intro p; unfold bind; rewrite Try_eq; reflexivity|].
  split; [intro p; rewrite Try_eq; unfold bind; rewrite Try_eq; reflexivity|].
  repeat split.
Qed.

(** ** Further properties of the package *)

(** *** The fragment of Sprintf on a format without operands *)

Lemma Sprintf_plain_char (c : ascii) (rest : string) (args : list any) :
  (c =? "%")%char = false ->
  Fmt.Sprintf (String c rest) args
  = Fmt.cat (Some (String c "")) (Fmt.Sprintf rest args).
Proof.
  destruct c as [[] [] [] [] [] [] [] []]; intro H;
    try discriminate H; reflexivity.
Qed.

Lemma Sprintf_percent_free (m : string) :
  percent_free m = true -> Fmt.Sprintf m [] = Some m.
Proof.
  induction m as [|c m IH]; [reflexivity|].
  cbn [percent_free]. intro H. apply andb_prop in H as [Hc Hm].
  apply negb_true_iff in Hc.
  rewrite (Sprintf_plain_char c m [] Hc), (IH Hm). reflexivity.
Qed.

Lemma Sprintf_trailing_percent (p : string) :
  percent_free p = true ->
  Fmt.Sprintf (p ++ "%") [] = Some (p ++ "%!(NOVERB)").
Proof.
  induction p as [|c p IH]; [reflexivity|].
  cbn [percent_free]. intro H. apply andb_prop in H as [Hc Hp].
  apply negb_true_iff in Hc. cbn [append].
  rewrite (Sprintf_plain_char c _ [] Hc), (IH Hp). reflexivity.
Qed.

(** *** Validate *)

(** X1.  [Validate] returns nil when the condition holds, whatever
    [LoErrorF] is.  When it fails, under [fmt.Errorf], the text of the error
    is the message formatted a second time, as a format without operands: it
    is the message itself when the message has no percent sign, and a message
    that ends in its only percent sign comes out with "%!(NOVERB)" in place of
    that sign. *)
Theorem Validate_formats_message_twice
    (Sprintf : string -> list any -> string)
    (LoErrorF : string -> list any -> error)
    (format : string) (args : list any) :
  agrees_with_fragment Sprintf ->
  Validate Sprintf LoErrorF true format args = None
  /\ Validate Sprintf (fmt_Errorf Sprintf) false format args
     = Some (errorString (Sprintf (Sprintf format args) []))
  /\ (percent_free (Sprintf format args) = true ->
      Validate Sprintf (fmt_Errorf Sprintf) false format args
      = Some (errorString (Sprintf format args)))
  /\ (forall p, percent_free p = true -> Sprintf format args = p ++ "%" ->
      Validate Sprintf (fmt_Errorf Sprintf) false format args
      = Some (errorString (p ++ "%!(NOVERB)"))).
Proof.
  intro Hfrag. split; [reflexivity|]. split; [reflexivity|].
  unfold Validate, fmt_Errorf. cbn [negb]. split.
  - intro Hfree. do 2 f_equal. apply Hfrag, Sprintf_percent_free, Hfree.
  - intros p Hfree Hm. do 2 f_equal. rewrite Hm.
    apply Hfrag, Sprintf_trailing_percent, Hfree.
Qed.

Lemma Validate_formats_message_twice_witness :
  Validate Sprintf_of_fragment (fmt_Errorf Sprintf_of_fragment) false
    "load %d%%" [Some (DInt 100)]
  = Some (errorString "load 100%!(NOVERB)").
Proof.
  exact (proj2 (proj2 (proj2
    (Validate_formats_message_twice Sprintf_of_fragment
       (fmt_Errorf Sprintf_of_fragment) "load %d%%" [Some (DInt 100)]
       Sprintf_of_fragment_agrees))) "load 100" eq_refl eq_refl).
Defined.


(** *** Try0 .. Try6 *)

(** X3.  [Try0] .. [Try6] never panic.  Each returns [true] exactly when its
    callback returned (for [Try1] .. [Try6]: with a nil error as last result),
    [false] when the callback returned a non-nil error or panicked; the
    values the callback produced are dropped, and the state is the one the
    callback left. *)
Theorem TryN_reports_callback_success
    {S T R S' Q V}
    (cb0 : M S unit) (cb1 : M S error) (cb2 : M S (T * error))
    (cb3 : M S (T * R * error)) (cb4 : M S (T * R * S' * error))
    (cb5 : M S (T * R * S' * Q * error))
    (cb6 : M S (T * R * S' * Q * V * error)) (s : S) :
  Try0 cb0 s
  = (Return (match fst (cb0 s) with Return _ => true | Panicked _ => false end),
     snd (cb0 s))
  /\ Try1 cb1 s = (Return (returns_nil (fst (cb1 s))), snd (cb1 s))
  /\ Try2 cb2 s = (Return (succeeded (fst (cb2 s))), snd (cb2 s))
  /\ Try3 cb3 s = (Return (succeeded (fst (cb3 s))), snd (cb3 s))
  /\ Try4 cb4 s = (Return (succeeded (fst (cb4 s))), snd (cb4 s))
  /\ Try5 cb5 s = (Return (succeeded (fst (cb5 s))), snd (cb5 s))
  /\ Try6 cb6 s = (Return (succeeded (fst (cb6 s))), snd (cb6 s)).
Proof.
  split; [apply Try0_eq|]. split; [apply Try_eq|].
  unfold Try2, Try3, Try4, Try5, Try6. rewrite !Try_eq. unfold bind, ret.
  split; [destruct (cb2 s) as [[[v [e|]]|p] s']; reflexivity|].
  split; [destruct (cb3 s) as [[[[v1 v2] [e|]]|p] s']; reflexivity|].
  split; [destruct (cb4 s) as [[[[[v1 v2] v3] [e|]]|p] s']; reflexivity|].
  split; [destruct (cb5 s) as [[[[[[v1 v2] v3] v4] [e|]]|p] s']; reflexivity|].
  destruct (cb6 s) as [[[[[[[v1 v2] v3] v4] v5] [e|]]|p] s']; reflexivity.
Qed.

(** X4.  The [ok] result of [TryOr1] .. [TryOr5] is the verdict that [Try2]
    .. [Try6] give on the same callback from the same state, and both leave
    the same state, whatever the fallback values. *)
Theorem TryOr_ok_is_Try_verdict
    {S A B C D E}
    (cb1 : M S (A * error)) (cb2 : M S (A * B * error))
    (cb3 : M S (A * B * C * error)) (cb4 : M S (A * B * C * D * error))
    (cb5 : M S (A * B * C * D * E * error))
    (fa : A) (fb : B) (fc : C) (fd : D) (fe : E) (s : S) :
  ok_of (TryOr1 cb1 fa s) = Try2 cb1 s
  /\ ok_of (TryOr2 cb2 fa fb s) = Try3 cb2 s
  /\ ok_of (TryOr3 cb3 fa fb fc s) = Try4 cb3 s
  /\ ok_of (TryOr4 cb4 fa fb fc fd s) = Try5 cb4 s
  /\ ok_of (TryOr5 cb5 fa fb fc fd fe s) = Try6 cb5 s.
Proof.
  unfold Try2, Try3, Try4, Try5, Try6. rewrite !Try_eq.
  unfold TryOr1, TryOr2, TryOr3, TryOr4, TryOr5, ok_of.
  unfold with_locals, bind, ret. rewrite !Try0_eq.
  unfold bind, lift, assign, ret.
  split; [destruct (cb1 s) as [[[v [e|]]|p] s']; reflexivity|].
  split; [destruct (cb2 s) as [[[[v1 v2] [e|]]|p] s']; reflexivity|].
  split; [destruct (cb3 s) as [[[[[v1 v2] v3] [e|]]|p] s']; reflexivity|].
  split; [destruct (cb4 s) as [[[[[[v1 v2] v3] v4] [e|]]|p] s']; reflexivity|].
  destruct (cb5 s) as [[[[[[[v1 v2] v3] v4] v5] [e|]]|p] s']; reflexivity.
Qed.

(** *** TryWithErrorValue, TryCatch, TryCatchWithErrorValue *)

(** X5.  [TryWithErrorValue] never panics; its [ok] is the verdict of [Try]
    on the same callback, it leaves the same state, and its error value is
    nil exactly when [ok] is true. *)
Theorem TryWithErrorValue_value_nil_iff_ok
    {S} (callback : M S error) (s : S) :
  exists (errorValue : any) (ok : bool) (s' : S),
    TryWithErrorValue callback s = (Return (errorValue, ok), s')
    /\ Try callback s = (Return ok, s')
    /\ (errorValue = None <-> ok = true).
Proof.
  rewrite TryWithErrorValue_eq, Try_eq.
  destruct (callback s) as [[[e|]|p] s']; cbn [fst snd returns_nil];
    do 3 eexists; (split; [reflexivity|]); (split; [reflexivity|]);
    split; intro H; try discriminate H; reflexivity.
Qed.

(** X6.  [TryCatch] does not run [catch] when the callback returns nil: it
    returns in the state the callback left.  When the callback returns a
    non-nil error or panics, [TryCatch] is [catch] run once from the state the
    callback left: what [catch] returns or panics with is what [TryCatch]
    returns or panics with, so a panic of [catch] is not stopped. *)
Theorem TryCatch_runs_catch_on_failure
    {S} (callback : M S error) (catch : M S unit) (s : S) :
  TryCatch callback catch s
  = (if returns_nil (fst (callback s)) then (Return tt, snd (callback s))
     else catch (snd (callback s)))
  /\ (forall p s2, returns_nil (fst (callback s)) = false ->
        catch (snd (callback s)) = (Panicked p, s2) ->
        TryCatch callback catch s = (Panicked p, s2))
  /\ (forall p, TryCatch (go_panic (Some p)) (go_panic (Some p)) s
                = (Panicked p, s)).
Proof.
  assert (H : TryCatch callback catch s
              = (if returns_nil (fst (callback s))
                 then (Return tt, snd (callback s))
                 else catch (snd (callback s)))).
  { unfold TryCatch, bind. rewrite Try_eq.
    destruct (returns_nil (fst (callback s))); reflexivity. }
  split; [exact H|]. split; [|reflexivity].
  intros p s2 Hfail Hcatch. rewrite H, Hfail. exact Hcatch.
Qed.

(** X7.  [TryCatchWithErrorValue] does not run [catch] when the callback
    returns nil.  When the callback returns the non-nil error [e] it is
    [catch(e)], and when the callback panics with payload [p] it is
    [catch(p)], run once from the state the callback left. *)
Theorem TryCatchWithErrorValue_hands_over_cause
    {S} (callback : M S error) (catch : any -> M S unit) (s : S) :
  TryCatchWithErrorValue callback catch s
  = match fst (callback s) with
    | Return None => (Return tt, snd (callback s))
    | Return (Some e) => catch (Some (DError e)) (snd (callback s))
    | Panicked p => catch (Some p) (snd (callback s))
    end.
Proof.
  unfold TryCatchWithErrorValue, bind. rewrite TryWithErrorValue_eq.
  destruct (callback s) as [[[e|]|p] s']; reflexivity.
Qed.

(** *** The Must and MustE families side by side *)

(** X8.  For the same failure and the same message arguments, the string
    [must] hands to the hook is the text, by its [Error] method (or
    [String]), of the wrapper [mustE] hands to the hook: the two families
    report the same message, as a string and as an error. *)
Theorem must_string_is_mustE_wrapper_text
    {U} (Sprintf : string -> list any -> string)
    (F : err) (messageArgs : list any) (m : string) (w : world U) :
  messageFromMsgAndArgs Sprintf messageArgs = Return m ->
  exists (text : string) (wrapper : wrapErrPrefixMsg),
    must Sprintf LoPanic_init (Some (DError F)) messageArgs w
    = (Panicked (DString text), record_call (Some (DString text)) w)
    /\ mustE Sprintf LoPanic_init (Some F) messageArgs w
       = (Panicked (DError (wrapErr wrapper)),
          record_call (Some (DError (wrapErr wrapper))) w)
    /\ wrapErrPrefixMsg_Error wrapper = text
    /\ wrapErrPrefixMsg_String wrapper = text.
Proof.
  intro Hm. exists (wrapErrPrefixMsg_Error (mkWrap F m)), (mkWrap F m).
  unfold must, mustE, bind, of_outcome. rewrite Hm.
  cbn [wrapErrPrefixMsg_Error wrapErrPrefixMsg_String].
  destruct (m =? ""); repeat split.
Qed.

Lemma must_string_is_mustE_wrapper_text_witness :
  exists (text : string) (wrapper : wrapErrPrefixMsg),
    must Sprintf_of_fragment LoPanic_init (Some (DError (errorString "boom")))
      [Some (DString "step %d"); Some (DInt 2)] fresh
    = (Panicked (DString text), record_call (Some (DString text)) fresh)
    /\ mustE Sprintf_of_fragment LoPanic_init (Some (errorString "boom"))
         [Some (DString "step %d"); Some (DInt 2)] fresh
       = (Panicked (DError (wrapErr wrapper)),
          record_call (Some (DError (wrapErr wrapper))) fresh)
    /\ wrapErrPrefixMsg_Error wrapper = text
    /\ wrapErrPrefixMsg_String wrapper = text.
Proof.
  exact (must_string_is_mustE_wrapper_text Sprintf_of_fragment
           (errorString "boom") [Some (DString "step %d"); Some (DInt 2)]
           "step 2" fresh eq_refl).
Defined.

(** X9.  Under a hook that returns to its caller, a Must or MustE call
    whose message arguments compose returns the values it was given even
    when the indicator signals failure: the functions stop the caller only
    through the hook. *)
Theorem Must_returns_values_when_hook_returns
    {U T1 T2} (Sprintf : string -> list any -> string)
    (hook : any -> M (world U) unit)
    (v1 : T1) (v2 : T2) (indicator : any) (failure : error)
    (messageArgs : list any) (m : string) (w : world U) :
  hook_returns hook ->
  messageFromMsgAndArgs Sprintf messageArgs = Return m ->
  (exists w', Must Sprintf hook v1 indicator messageArgs w = (Return v1, w'))
  /\ (exists w', Must2 Sprintf hook v1 v2 indicator messageArgs w
                 = (Return (v1, v2), w'))
  /\ (exists w', MustE Sprintf hook v1 failure messageArgs w = (Return v1, w'))
  /\ (exists w', MustE2 Sprintf hook v1 v2 failure messageArgs w
                 = (Return (v1, v2), w')).
Proof.
  intros Hhook Hm.
  assert (Hmust : exists w', must Sprintf hook indicator messageArgs w
                             = (Return tt, w')).
  { unfold must, bind, of_outcome, LoPanic. rewrite Hm.
    destruct indicator as [[[|]| | | |]|]; cbn [negb];
      try (destruct (negb (m =? ""))); try apply Hhook;
      eexists; reflexivity. }
  assert (HmustE : exists w', mustE Sprintf hook failure messageArgs w
                              = (Return tt, w')).
  { unfold mustE, bind, of_outcome, LoPanic. rewrite Hm.
    destruct failure as [F|]; [apply Hhook|eexists; reflexivity]. }
  destruct Hmust as [w1 H1]. destruct HmustE as [w2 H2].
  unfold Must, Must2, MustE, MustE2, bind, ret. rewrite H1, H2.
  repeat split; eexists; reflexivity.
Qed.

Lemma Must_returns_values_when_hook_returns_witness :
  exists w',
    Must Sprintf_of_fragment quiet_hook 7%Z (Some (DBool false)) [] fresh
    = (Return 7%Z, w').
Proof.
  exact (proj1
    (Must_returns_values_when_hook_returns (T2:=unit)
       Sprintf_of_fragment quiet_hook 7%Z tt (Some (DBool false)) None
       [] "" fresh
       (fun e w => ex_intro _ w eq_refl) eq_refl)).
Defined.

(** *** The message composer *)

(** X10.  [messageFromMsgAndArgs] returns a message exactly when it is given
    at most one argument, or a string as first argument; in every other case
    it panics with the runtime's type-assertion error for the first
    argument. *)
Theorem messageFromMsgAndArgs_returns_iff
    (Sprintf : string -> list any -> string) (msgAndArgs : list any) :
  ((exists m, messageFromMsgAndArgs Sprintf msgAndArgs = Return m)
   <-> (length msgAndArgs <= 1
        \/ exists format rest, msgAndArgs = Some (DString format) :: rest))
  /\ ((exists p, messageFromMsgAndArgs Sprintf msgAndArgs = Panicked p)
      <-> (exists x a rest, msgAndArgs = x :: a :: rest
                            /\ assert_string x = None
                            /\ messageFromMsgAndArgs Sprintf msgAndArgs
                               = Panicked (typeAssertionError x))).
Proof.
  destruct msgAndArgs as [|x [|a rest]].
  - split; split.
    + intros _. left. simpl. lia.
    + intros _. eexists; reflexivity.
    + intros [p H]. discriminate H.
    + intros (x & a & rest & H & _). discriminate H.
  - split; split.
    + intros _. left. simpl. lia.
    + intros _. simpl. destruct (assert_string x); eexists; reflexivity.
    + intros [p H]. simpl in H. destruct (assert_string x); discriminate H.
    + intros (x' & a & rest & H & _). discriminate H.
  - destruct (assert_string x) as [format|] eqn:Hx.
    + assert (x = Some (DString format)) as ->.
      { destruct x as [[| | | |]|]; try discriminate Hx.
        simpl in Hx. now injection Hx as ->. }
      split; split.
      * intros _. right. eauto.
      * intros _. eexists; reflexivity.
      * intros [p H]. discriminate H.
      * intros (x' & a' & rest' & H & Hx' & _).
        injection H as <- _ _. discriminate Hx'.
    + split; split.
      * intros [m H]. simpl in H. rewrite Hx in H. discriminate H.
      * intros [H|(format & rest' & H)].
        -- simpl in H. lia.
        -- injection H as -> _. discriminate Hx.
      * intros _. exists x, a, rest. simpl. rewrite Hx. repeat split.
      * intros _. simpl. rewrite Hx. eexists; reflexivity.
Qed.

(** *** The failure wrapper in an error chain *)

Lemma string_app_assoc (s t u : string) : (s ++ t) ++ u = s ++ (t ++ u).
Proof.
  induction s as [|c s IH]; cbn [append]; [reflexivity|now rewrite IH].
Qed.

(** X12.  An error that is not itself a wrapper, handed to [MustE0] with
    message arguments that compose, comes back whole: [TryWithErrorValue]
    around the call returns the wrapper as error value, and [ErrorsAs] with
    the error's own type finds the error inside the wrapper, whatever the
    attached message.  [ErrorsAs] with the wrapper's type, or with the
    interface [error], stops at the wrapper. *)
Theorem MustE_failure_found_again_by_ErrorsAs
    {U} (Sprintf : string -> list any -> string)
    (F : err) (messageArgs : list any) (m : string) (w : world U) :
  messageFromMsgAndArgs Sprintf messageArgs = Return m ->
  Errors.TypeOf F <> Errors.T_wrapErrPrefixMsg ->
  let wrapped := wrapErr (mkWrap F m) in
  TryWithErrorValue (MustE0 Sprintf LoPanic_init (Some F) messageArgs ;;; ret None) w
  = (Return (Some (DError wrapped), false),
     record_call (Some (DError wrapped)) w)
  /\ ErrorsAs (Errors.TypeOf F) (Some wrapped) = (Some F, true)
  /\ ErrorsAs Errors.T_wrapErrPrefixMsg (Some wrapped) = (Some wrapped, true)
  /\ ErrorsAs Errors.T_error (Some wrapped) = (Some wrapped, true).
Proof.
  intros Hm HF wrapped. split.
  - rewrite TryWithErrorValue_eq. unfold MustE0, mustE, bind, of_outcome.
    rewrite Hm. reflexivity.
  - split; [|split; reflexivity].
    destruct F as [s|n s|n s|wr]; [| | |contradiction];
      unfold ErrorsAs, Errors.As, wrapped;
      cbn [Errors.As_loop Errors.TypeOf Errors.AssignableTo Errors.errType_eqb];
      rewrite ?String.eqb_refl; reflexivity.
Qed.

Lemma MustE_failure_found_again_by_ErrorsAs_witness :
  ErrorsAs (Errors.T_customError "store.NotFound")
    (Some (wrapErr (mkWrap
       (customError (mkType "store.NotFound" "NotFound") "no such key")
       "lookup")))
  = (Some (customError (mkType "store.NotFound" "NotFound") "no such key"),
     true).
Proof.
  assert (Hne : Errors.TypeOf
                  (customError (mkType "store.NotFound" "NotFound") "no such key")
                <> Errors.T_wrapErrPrefixMsg) by discriminate.
  exact (proj1 (proj2
    (MustE_failure_found_again_by_ErrorsAs Sprintf_of_fragment
       (customError (mkType "store.NotFound" "NotFound") "no such key")
       [Some (DString "lookup")]
       "lookup" fresh eq_refl Hne))).
Defined.

(** X13.  Wrappers of the package put in front of the text of the error
    they are wrapped around, whatever that error is, each non-empty attached
    text followed by ": ", outermost first, and nothing else: the text of a
    wrapper ends with the text of the error under the wrappers, and wrappers
    whose attached texts are all empty leave that text as it is. *)
Theorem wrappers_only_prefix_base_text (e : err) :
  err_Error e = prefixed (attached_prefixes e) (err_Error (beneath_wrappers e))
  /\ (exists front, err_Error e = front ++ err_Error (beneath_wrappers e))
  /\ (forall w, beneath_wrappers e <> wrapErr w)
  /\ (forallb (fun a => a =? "") (attached_prefixes e) = true ->
      err_Error e = err_Error (beneath_wrappers e)).
Proof.
  assert (Htext : forall x,
            err_Error x
            = prefixed (attached_prefixes x) (err_Error (beneath_wrappers x))).
  { fix IH 1. intros [s|t s|t s|[b a]]; try reflexivity.
    cbn [err_Error wrapErrPrefixMsg_Error attached_prefixes beneath_wrappers
         prefixed].
    rewrite <- (IH b). destruct (a =? ""); reflexivity. }
  assert (Hfront : forall attached t, exists front, prefixed attached t = front ++ t).
  { induction attached as [|a rest IH]; intro t; [exists ""; reflexivity|].
    destruct (IH t) as [front Hf]. cbn [prefixed]. destruct (a =? "").
    - exists front. exact Hf.
    - exists (a ++ ": " ++ front). rewrite Hf, !string_app_assoc. reflexivity. }
  split; [apply Htext|].
  split; [rewrite Htext; apply Hfront|].
  split.
  - revert e. fix IH 1. intros [s|t s|t s|[b a]] w; try discriminate.
    cbn [beneath_wrappers]. apply IH.
  - rewrite Htext. generalize (err_Error (beneath_wrappers e)).
    induction (attached_prefixes e) as [|a rest IH]; intros t Hall;
      [reflexivity|].
    cbn [forallb] in Hall. apply andb_prop in Hall as [Ha Hrest].
    cbn [prefixed]. rewrite Ha. apply IH, Hrest.
Qed.
